(** * shared/utils/helpers.py: pagination, key generation and expiry helpers

    A shallow embedding of [shared.utils.helpers] together with the small
    part of the Python semantics the module relies on (unbounded integers,
    floor division, list slicing, truthiness of [Optional[int]],
    [timedelta]/[datetime] arithmetic and [secrets.choice]). *)

From Stdlib Require Import ZArith List Lia Bool String Ascii QArith Qround.
Import ListNotations.
Local Open Scope Z_scope.

(** ** The fragment of Python used by the module *)

Module Py.

(** Exceptions the modelled code can raise. *)
Inductive exn : Type :=
| ZeroDivisionError
| OverflowError
| TypeError
| IndexError.

(** A computation either returns a value or raises. *)
Inductive result (A : Type) : Type :=
| Ok (a : A)
| Raise (e : exn).
Arguments Ok {A} a.
Arguments Raise {A} e.

Definition bind {A B} (r : result A) (k : A -> result B) : result B :=
  match r with
  | Ok a => k a
  | Raise e => Raise e
  end.

Fixpoint mapM {A B} (f : A -> result B) (l : list A) : result (list B) :=
  match l with
  | [] => Ok []
  | x :: xs => bind (f x) (fun y => bind (mapM f xs) (fun ys => Ok (y :: ys)))
  end.

(** [a // b] on [int]: floor division, raising on a zero divisor.
    [Z.div] rounds towards minus infinity, as Python does. *)
Definition floordiv (a b : Z) : result Z :=
  if b =? 0 then Raise ZeroDivisionError else Ok (a / b).

(** [len(l)] as a Python [int]. *)
Definition len {A} (l : list A) : Z := Z.of_nat (List.length l).

(** Normalisation of one slice bound for a positive step
    (CPython's [PySlice_AdjustIndices]): a negative bound counts from the
    end and is clamped at 0, a bound past the end is clamped at [len]. *)
Definition adjust_index (i length : Z) : Z :=
  if i <? 0 then
    (if i + length <? 0 then 0 else i + length)
  else if length <=? i then length
  else i.

(** [l[start:stop]] with both bounds given and the default step. *)
Definition slice {A} (l : list A) (start stop : Z) : list A :=
  let lo := adjust_index start (len l) in
  let hi := adjust_index stop (len l) in
  if hi <=? lo then []
  else firstn (Z.to_nat (hi - lo)) (skipn (Z.to_nat lo) l).

(** [range(lo, hi)] as a list. *)
Definition range (lo hi : Z) : list Z :=
  map (fun k => lo + Z.of_nat k) (seq 0 (Z.to_nat (hi - lo))).

(** Total correctness of a call: it returns, and the value satisfies [P]. *)
Definition returns {A} (r : result A) (P : A -> Prop) : Prop :=
  match r with
  | Ok a => P a
  | Raise _ => False
  end.

(** Truthiness of an [Optional[int]]: [None] and [0] are falsy. *)
Definition truthy (o : option Z) : bool :=
  match o with
  | None => false
  | Some n => negb (n =? 0)
  end.

(** *** [datetime]

    A [timedelta] is its total number of microseconds; a naive [datetime]
    is the number of microseconds elapsed since midnight of proleptic
    ordinal day 0, so that the quotient by [US_PER_DAY] is [toordinal()]. *)

Definition timedelta : Type := Z.
Definition datetime : Type := Z.

Definition US_PER_HOUR : Z := 3600000000.
Definition US_PER_DAY : Z := 24 * US_PER_HOUR.
Definition MAX_DELTA_DAYS : Z := 999999999.
Definition MAXORDINAL : Z := 3652059.

(** Constructor check shared by every [timedelta]: the normalised [days]
    field must fit in [-999999999, 999999999]. *)
Definition timedelta_of_us (us : Z) : result timedelta :=
  let d := us / US_PER_DAY in
  if (- MAX_DELTA_DAYS <=? d) && (d <=? MAX_DELTA_DAYS) then Ok us
  else Raise OverflowError.

(** [timedelta(days=d)]; passing [None] is a [TypeError]. *)
Definition timedelta_days (d : option Z) : result timedelta :=
  match d with
  | Some n => timedelta_of_us (n * US_PER_DAY)
  | None => Raise TypeError
  end.

(** [timedelta(hours=h)]. *)
Definition timedelta_hours (h : option Z) : result timedelta :=
  match h with
  | Some n => timedelta_of_us (n * US_PER_HOUR)
  | None => Raise TypeError
  end.

(** [datetime.__add__]: the sum must fall on an ordinal day in
    [1, MAXORDINAL] (years 1 to 9999). *)
Definition datetime_add (t : datetime) (d : timedelta) : result datetime :=
  let r := t + d in
  let ord := r / US_PER_DAY in
  if (0 <? ord) && (ord <=? MAXORDINAL) then Ok r
  else Raise OverflowError.

(** *** [string] and [secrets] *)

Definition ascii_lowercase : list ascii :=
  list_ascii_of_string "abcdefghijklmnopqrstuvwxyz".
Definition ascii_uppercase : list ascii :=
  list_ascii_of_string "ABCDEFGHIJKLMNOPQRSTUVWXYZ".
Definition ascii_letters : list ascii := ascii_lowercase ++ ascii_uppercase.
Definition digits : list ascii := list_ascii_of_string "0123456789".

(** The operating system's random source, as [secrets.SystemRandom]
    sees it: a state from which [randbelow n] draws one number. *)
Class SystemRandom (rng : Type) : Type :=
  { randbelow : nat -> rng -> nat * rng }.

(** The contract of [_randbelow]: a draw below [n] lies in [0, n). *)
Definition randbelow_in_range (rng : Type) `{SystemRandom rng} : Prop :=
  forall (n : nat) (s : rng), (0 < n)%nat -> (fst (randbelow n s) < n)%nat.

(** Code that draws random numbers and may raise. *)
Definition Rand (rng A : Type) : Type := rng -> result A * rng.

Definition ret {rng A} (a : A) : Rand rng A := fun s => (Ok a, s).

Definition rbind {rng A B} (c : Rand rng A) (k : A -> Rand rng B)
  : Rand rng B :=
  fun s =>
    match c s with
    | (Ok a, s') => k a s'
    | (Raise e, s') => (Raise e, s')
    end.

(** The generator expression [f(x) for x in l], consumed in order. *)
Fixpoint forM {rng A B} (l : list A) (f : A -> Rand rng B)
  : Rand rng (list B) :=
  match l with
  | [] => ret []
  | x :: xs =>
      rbind (f x) (fun y => rbind (forM xs f) (fun ys => ret (y :: ys)))
  end.

(** [secrets.choice(seq)]: [seq[randbelow(len(seq))]], with
    [IndexError] on an empty sequence or an index outside it. *)
Definition choice {rng} `{SystemRandom rng} {A} (seq : list A) : Rand rng A :=
  fun s =>
    match seq with
    | [] => (Raise IndexError, s)
    | _ :: _ =>
        let (i, s') := randbelow (List.length seq) s in
        match nth_error seq i with
        | Some x => (Ok x, s')
        | None => (Raise IndexError, s')
        end
    end.

(** [''.join(chars)]. *)
Definition join (chars : list ascii) : string := string_of_list_ascii chars.

End Py.

Module helpers.
Import Py.

Notation "x <- c1 ;; c2" := (bind c1 (fun x => c2))
  (at level 61, c1 at next level, right associativity).

(** *** class Paginator *)

Record Paginator (T : Type) : Type := {
  all_items : list T;
  page : Z;
  page_size : Z;
  total : Z;
  total_pages : Z;
  items : list T
}.
Arguments all_items {T} _.
Arguments page {T} _.
Arguments page_size {T} _.
Arguments total {T} _.
Arguments total_pages {T} _.
Arguments items {T} _.

(** [Paginator.__init__]; the only statement that can raise is the
    floor division by [page_size]. *)
Definition __init__ {T} (items0 : list T) (page0 page_size0 : Z)
  : result (Paginator T) :=
  let total0 := len items0 in
  total_pages0 <- floordiv (total0 + page_size0 - 1) page_size0 ;;
  let start := (page0 - 1) * page_size0 in
  let end_ := start + page_size0 in
  Ok {| all_items := items0;
        page := page0;
        page_size := page_size0;
        total := total0;
        total_pages := total_pages0;
        items := slice items0 start end_ |}.

Definition has_next {T} (self : Paginator T) : bool :=
  page self <? total_pages self.

Definition has_prev {T} (self : Paginator T) : bool :=
  1 <? page self.

(** *** generate_random_string, generate_api_key *)

Notation "x <~ c1 ;; c2" := (rbind c1 (fun x => c2))
  (at level 61, c1 at next level, right associativity).

Section Secrets.
Context {rng : Type} `{SystemRandom rng}.

Definition generate_random_string (length : Z) : Rand rng string :=
  let alphabet := ascii_letters ++ digits in
  chars <~ forM (range 0 length) (fun _ => choice alphabet) ;;
  ret (join chars).

Definition generate_api_key : Rand rng string :=
  random_part <~ generate_random_string 64 ;;
  ret ("aimpk_" ++ random_part)%string.
End Secrets.

(** *** get_expiry_time, is_expired

    [utcnow] is the value read from the clock by [datetime.utcnow()]. *)

Definition get_expiry_time (utcnow : datetime) (days hours : option Z)
  : result datetime :=
  let now := utcnow in
  if truthy days then
    d <- timedelta_days days ;; datetime_add now d
  else if truthy hours then
    d <- timedelta_hours hours ;; datetime_add now d
  else
    d <- timedelta_days (Some 30) ;; datetime_add now d.

Definition is_expired (utcnow : datetime) (expiry_time : datetime) : bool :=
  expiry_time <? utcnow.

End helpers.

Import Py helpers.

(** [ceil(n / d)] over the rationals, for a positive denominator. *)
Definition ceil_quotient (n d : Z) : Z := Qceiling (n # Z.to_pos d).


(** An ASCII letter or digit, by character code. *)
Definition is_alnum (c : ascii) : bool :=
  let n := nat_of_ascii c in
  ((48 <=? n) && (n <=? 57) || (65 <=? n) && (n <=? 90)
   || (97 <=? n) && (n <=? 122))%nat.

(** A random source that replays a recorded tape of raw draws, reduced
    modulo the requested bound; an exhausted tape yields zeros. *)
#[local] Instance tape_random : SystemRandom (list nat) :=
  {| randbelow := fun n s => (Nat.modulo (hd 0%nat s) n, tl s) |}.

Definition sample_tape : list nat := [3; 70; 61; 200]%nat.

(** The clock reading 2024-01-01T00:00:00 (ordinal day 738886). *)
Definition new_year_2024 : datetime := 738886 * US_PER_DAY.

(** ** shared/schemas/base.py: pagination query parameters *)

Module schemas.

(** A bound declared on an integer field and reported when it is violated. *)
Inductive constraint : Type :=
| greater_than_equal (ge : Z)
| less_than_equal (le : Z).

(** One entry of a validation error: the field, the bound, the input. *)
Record field_error : Type := {
  loc : string;
  violated : constraint;
  input : Z
}.

(** Constructing a schema either gives the object or the list of the
    constraint violations of its fields, in field order. *)
Inductive validated (A : Type) : Type :=
| Valid (a : A)
| ValidationError (errors : list field_error).
Arguments Valid {A} a.
Arguments ValidationError {A} errors.

(** [Field(default=..., ge=..., le=...)] of an [int] field. *)
Record IntField : Type := {
  default : Z;
  ge : option Z;
  le : option Z
}.

(** An omitted argument takes the field's default. *)
Definition field_value (f : IntField) (given : option Z) : Z :=
  match given with
  | Some v => v
  | None => default f
  end.

(** The violations of one field's bounds by the value [v]. *)
Definition field_errors (name : string) (f : IntField) (v : Z)
  : list field_error :=
  (match ge f with
   | Some b =>
       if v <? b
       then [{| loc := name; violated := greater_than_equal b; input := v |}]
       else []
   | None => []
   end)
  ++
  (match le f with
   | Some b =>
       if b <? v
       then [{| loc := name; violated := less_than_equal b; input := v |}]
       else []
   | None => []
   end).

(** *** class PaginationParams *)

Record PaginationParams : Type := {
  page : Z;
  page_size : Z
}.

Definition page_field : IntField :=
  {| default := 1; ge := Some 1; le := None |}.

Definition page_size_field : IntField :=
  {| default := 20; ge := Some 1; le := Some 100 |}.

(** [PaginationParams(page=..., page_size=...)] on integer arguments,
    either of which may be omitted. *)
Definition PaginationParams_init (page0 page_size0 : option Z)
  : validated PaginationParams :=
  let p := field_value page_field page0 in
  let s := field_value page_size_field page_size0 in
  match field_errors "page" page_field p
        ++ field_errors "page_size" page_size_field s with
  | [] => Valid {| page := p; page_size := s |}
  | errors => ValidationError errors
  end.

End schemas.

(** ** shared/common/logger.py: the structured data of [log_error] *)

Module logger.

Section Dict.
Context {V : Type}.

(** A [dict] with string keys, in insertion order. *)
Definition dict : Type := list (string * V).

(** [d[k] = v]: an existing key keeps its position, a new one goes last. *)
Fixpoint dict_set (k : string) (v : V) (d : dict) : dict :=
  match d with
  | [] => [(k, v)]
  | (k', v') :: rest =>
      if String.eqb k k' then (k', v) :: rest
      else (k', v') :: dict_set k v rest
  end.

(** [d.get(k)]. *)
Fixpoint dict_get (k : string) (d : dict) : option V :=
  match d with
  | [] => None
  | (k', v') :: rest => if String.eqb k k' then Some v' else dict_get k rest
  end.

(** [d.update(other)]: the items of [other] are assigned in order. *)
Definition dict_update (d other : dict) : dict :=
  fold_left (fun acc kv => dict_set (fst kv) (snd kv) acc) other d.

(** Truthiness of an [Optional[dict]]: [None] and [{}] are falsy. *)
Definition dict_truthy (o : option dict) : bool :=
  match o with
  | Some (_ :: _) => true
  | _ => false
  end.

(** The dictionary [log_error] hands to [logger.error] as [extra]:
    [error_type] is [type(error).__name__], [error_message] is
    [str(error)], and [str_value] makes a dictionary value of a string. *)
Definition error_data (str_value : string -> V)
  (error_type error_message : string) (context : option dict) : dict :=
  let error_data0 :=
    [("error_type"%string, str_value error_type);
     ("error_message"%string, str_value error_message)] in
  if dict_truthy context then
    match context with
    | Some c => dict_update error_data0 c
    | None => error_data0
    end
  else error_data0.

End Dict.
Arguments dict V : clear implicits.

End logger.

(** ** shared/common/database.py: the session dependency [get_db] *)

Module database.

(** An exception is caught by [except Exception] or it is not (as
    [GeneratorExit], [CancelledError] and [KeyboardInterrupt] are not). *)
Inductive exception : Type :=
| Exception_ (name : string)
| BaseException_ (name : string).

(** What happens to the session, in order. *)
Inductive event : Type :=
| Enter        (* [async with async_session_maker() as session] is entered *)
| Yield        (* the session is handed to the route *)
| Commit
| Rollback
| Close
| Exit_.       (* the [async with] block is left *)

Inductive outcome (A : Type) : Type :=
| Return (a : A)
| Raised (e : exception).
Arguments Return {A} a.
Arguments Raised {A} e.

(** Code that acts on the session and may raise: it extends the trace. *)
Definition Act (A : Type) : Type := list event -> outcome A * list event.

Definition seq_ {A B} (c : Act A) (k : Act B) : Act B :=
  fun tr =>
    match c tr with
    | (Return _, tr') => k tr'
    | (Raised e, tr') => (Raised e, tr')
    end.

Definition raise_ {A} (e : exception) : Act A := fun tr => (Raised e, tr).

(** An awaited operation: it is recorded, then it returns or raises. *)
Definition await (ev : event) (raises : option exception) : Act unit :=
  fun tr =>
    (match raises with
     | None => Return tt
     | Some e => Raised e
     end, tr ++ [ev]).

(** [try: body / except Exception: handler]. *)
Definition try_except_Exception {A} (body : Act A)
  (handler : exception -> Act A) : Act A :=
  fun tr =>
    match body tr with
    | (Raised (Exception_ n), tr') => handler (Exception_ n) tr'
    | r => r
    end.

(** [try: body / finally: final]: [final] always runs; when it raises,
    its exception replaces the outcome of [body]. *)
Definition try_finally {A} (body : Act A) (final : Act unit) : Act A :=
  fun tr =>
    match body tr with
    | (o, tr') =>
        match final tr' with
        | (Return _, tr'') => (o, tr'')
        | (Raised e, tr'') => (Raised e, tr'')
        end
    end.

(** [async with ...: body]: the block is entered and always left; leaving
    it does not suppress an exception. *)
Definition async_with {A} (body : Act A) : Act A :=
  fun tr =>
    match body (tr ++ [Enter]) with
    | (o, tr') => (o, tr' ++ [Exit_])
    end.

(** What the surroundings do during one use of the dependency: what the
    route does with the session it was handed ([None]: it finishes and the
    generator is resumed; [Some e]: [e] is thrown into the generator), and
    whether each awaited session operation raises. *)
Record world : Type := {
  route : option exception;
  commit_raises : option exception;
  rollback_raises : option exception;
  close_raises : option exception
}.

Definition get_db (w : world) : Act unit :=
  async_with
    (try_finally
       (try_except_Exception
          (seq_ (await Yield (route w)) (await Commit (commit_raises w)))
          (fun e => seq_ (await Rollback (rollback_raises w)) (raise_ e)))
       (await Close (close_raises w))).


End database.

(** The keys of a dictionary, in order, and membership among keys. *)
Definition keys {V : Type} (d : logger.dict V) : list string := map fst d.

Definition mem (k : string) (ks : list string) : bool :=
  existsb (String.eqb k) ks.

(** The context of [log_error] read as a dictionary: none is empty. *)
Definition context_items {V : Type} (context : option (logger.dict V))
  : logger.dict V :=
  match context with
  | Some c => c
  | None => []
  end.

(** A clock reading and expiry inside the years 1 to 9999. *)
Definition in_datetime_range (t : datetime) : Prop :=
  1 <= t / US_PER_DAY <= MAXORDINAL.

(** The example of the class docstring. *)
Example docstring_example :
  returns (__init__ [1;2;3;4;5;6;7;8;9;10] 2 3)
          (fun self => items self = [4;5;6] /\ total_pages self = 4 /\
                       has_next self = true).
Proof. simpl. repeat split. Qed.

(** ** Python slicing and floor division *)

Section SliceFacts.
Context {T : Type}.
Implicit Types (l : list T) (start stop : Z).

Lemma len_nonneg l : 0 <= len l.
Proof. unfold len. lia. Qed.

Lemma adjust_index_nonneg i n :
  0 <= i -> 0 <= n -> adjust_index i n = Z.min i n.
Proof.
  intros Hi Hn. unfold adjust_index.
  destruct (Z.ltb_spec i 0); [lia|].
  destruct (Z.leb_spec n i); lia.
Qed.

(** A slice with non-negative bounds never fails: it is made of the
    elements at positions [start], ..., [stop - 1] that exist. *)
Lemma slice_nonneg l start stop :
  0 <= start -> start <= stop ->
  slice l start stop
  = firstn (Z.to_nat (stop - start)) (skipn (Z.to_nat start) l).
Proof.
  intros H0 Hle. unfold slice.
  pose proof (len_nonneg l) as Hl.
  rewrite !adjust_index_nonneg by lia.
  destruct (Z.leb_spec (Z.min stop (len l)) (Z.min start (len l))) as [Hc|Hc].
  - destruct (Z.le_gt_cases (len l) start) as [Hs|Hs].
    + rewrite skipn_all2 by (unfold len in Hs; lia).
      now rewrite firstn_nil.
    + replace (stop - start) with 0 by lia. reflexivity.
  - destruct (Z.le_gt_cases stop (len l)) as [Hs|Hs].
    + repeat f_equal; lia.
    + rewrite Z.min_r, Z.min_l by lia.
      rewrite !firstn_all2; trivial;
        rewrite length_skipn; unfold len in *; lia.
Qed.

Lemma slice_stop_zero l start : start <= 0 -> slice l start 0 = [].
Proof.
  intros Hs. unfold slice.
  pose proof (len_nonneg l) as Hl.
  assert (Hhi : adjust_index 0 (len l) = 0).
  { rewrite adjust_index_nonneg by lia. lia. }
  rewrite Hhi.
  assert (Hlo : 0 <= adjust_index start (len l)).
  { unfold adjust_index.
    destruct (Z.ltb_spec start 0).
    - destruct (Z.ltb_spec (start + len l) 0); lia.
    - destruct (Z.leb_spec (len l) start); lia. }
  destruct (Z.leb_spec 0 (adjust_index start (len l))); [reflexivity|lia].
Qed.

Lemma length_slice_nonneg l start stop :
  0 <= start -> start <= stop ->
  len (slice l start stop) = Z.max 0 (Z.min stop (len l) - start).
Proof.
  intros H0 Hle. rewrite slice_nonneg by assumption.
  unfold len. rewrite length_firstn, length_skipn. lia.
Qed.
End SliceFacts.

(** The page count computed by [(total + page_size - 1) // page_size]. *)
Lemma page_count_bounds (n d : Z) :
  1 <= d -> 0 <= n ->
  ((n + d - 1) / d - 1) * d < n <= (n + d - 1) / d * d.
Proof.
  intros Hd Hn.
  pose proof (Z.div_mod (n + d - 1) d ltac:(lia)) as E.
  pose proof (Z.mod_pos_bound (n + d - 1) d ltac:(lia)) as B.
  nia.
Qed.

Lemma page_count_ceil (n d : Z) :
  1 <= d -> (n + d - 1) / d = ceil_quotient n d.
Proof.
  intros Hd. unfold ceil_quotient, Qceiling, Qfloor, Qopp. simpl.
  rewrite Z2Pos.id by lia.
  pose proof (Z.div_mod (n + d - 1) d ltac:(lia)) as E1.
  pose proof (Z.mod_pos_bound (n + d - 1) d ltac:(lia)) as B1.
  pose proof (Z.div_mod (- n) d ltac:(lia)) as E2.
  pose proof (Z.mod_pos_bound (- n) d ltac:(lia)) as B2.
  nia.
Qed.

(** ** Paginator *)

Lemma init_returns (T : Type) (l : list T) (page0 page_size0 : Z) :
  page_size0 <> 0 ->
  __init__ l page0 page_size0
  = Ok {| all_items := l;
          page := page0;
          page_size := page_size0;
          total := len l;
          total_pages := (len l + page_size0 - 1) / page_size0;
          items := slice l ((page0 - 1) * page_size0)
                           ((page0 - 1) * page_size0 + page_size0) |}.
Proof.
  intros Hne. unfold __init__, floordiv.
  destruct (Z.eqb_spec page_size0 0); [contradiction|reflexivity].
Qed.

(** Every positive page starts at a non-negative index. *)
Lemma page_start_nonneg (page0 page_size0 : Z) :
  1 <= page0 -> 1 <= page_size0 -> 0 <= (page0 - 1) * page_size0.
Proof. intros. nia. Qed.

Ltac init_ok :=
  rewrite init_returns by lia;
  unfold returns, has_next, has_prev;
  cbn [items total total_pages page page_size all_items].

(** C1: for [page >= 1] and [page_size >= 1] the constructor returns, and
    [self.items] is the slice of the input from [start = (page - 1) *
    page_size] to [end = start + page_size]: its [i]-th element is the input's
    element at [start + i] while [start + i < end] and that position exists;
    bounds past the end of the input are clipped, so the slice is empty (not
    an error) once [start] is at or past the length. *)
Theorem Paginator_items_slice (T : Type) (l : list T) (page0 page_size0 : Z) :
  1 <= page0 -> 1 <= page_size0 ->
  let start := (page0 - 1) * page_size0 in
  let end_ := start + page_size0 in
  returns (__init__ l page0 page_size0) (fun self =>
    items self = firstn (Z.to_nat (end_ - start)) (skipn (Z.to_nat start) l) /\
    (forall i : nat,
        nth_error (items self) i
        = if start + Z.of_nat i <? end_
          then nth_error l (Z.to_nat start + i) else None) /\
    (len l <= start -> items self = [])).
Proof.
  intros Hp Hs start end_.
  pose proof (page_start_nonneg _ _ Hp Hs) as H0. fold start in H0.
  init_ok. fold start. fold end_.
  assert (E : slice l start end_
              = firstn (Z.to_nat (end_ - start)) (skipn (Z.to_nat start) l))
    by (apply slice_nonneg; subst end_; lia).
  rewrite E. split; [reflexivity|split].
  - intros i. rewrite nth_error_firstn, nth_error_skipn.
    destruct (Nat.ltb_spec i (Z.to_nat (end_ - start)));
      destruct (Z.ltb_spec (start + Z.of_nat i) end_); trivial; lia.
  - intros Hlen. rewrite skipn_all2 by (unfold len in Hlen; lia).
    apply firstn_nil.
Qed.

Lemma Paginator_items_slice_witness :
  returns (__init__ [10; 20; 30; 40; 50] 2 2) (fun self =>
    items self = firstn (Z.to_nat ((2 - 1) * 2 + 2 - (2 - 1) * 2))
                        (skipn (Z.to_nat ((2 - 1) * 2)) [10; 20; 30; 40; 50]) /\
    (forall i : nat,
        nth_error (items self) i
        = if (2 - 1) * 2 + Z.of_nat i <? (2 - 1) * 2 + 2
          then nth_error [10; 20; 30; 40; 50] (Z.to_nat ((2 - 1) * 2) + i)
          else None) /\
    (len [10; 20; 30; 40; 50] <= (2 - 1) * 2 -> items self = [])).
Proof. apply (Paginator_items_slice Z [10; 20; 30; 40; 50] 2 2); lia. Defined.

(** C2: for a list of length [N] and [page_size >= 1] the constructed
    Paginator has [total = N] and [total_pages = ceil(N / page_size)], which
    is [0] when [N = 0]. *)
Theorem Paginator_total_pages_ceil (T : Type) (l : list T) (page0 page_size0 : Z) :
  1 <= page_size0 ->
  returns (__init__ l page0 page_size0) (fun self =>
    total self = Z.of_nat (List.length l) /\
    total_pages self = ceil_quotient (Z.of_nat (List.length l)) page_size0 /\
    (List.length l = 0%nat -> total_pages self = 0)).
Proof.
  intros Hs. init_ok. unfold len.
  split; [reflexivity|split].
  - now apply page_count_ceil.
  - intros ->. change (Z.of_nat 0) with 0.
    apply Z.div_small. lia.
Qed.

Lemma Paginator_total_pages_ceil_witness :
  returns (__init__ [1; 2; 3; 4; 5; 6; 7] 1 3) (fun self =>
    total self = Z.of_nat (List.length [1; 2; 3; 4; 5; 6; 7]) /\
    total_pages self = ceil_quotient (Z.of_nat (List.length [1; 2; 3; 4; 5; 6; 7])) 3 /\
    (List.length [1; 2; 3; 4; 5; 6; 7] = 0%nat -> total_pages self = 0)).
Proof. apply (Paginator_total_pages_ceil Z [1; 2; 3; 4; 5; 6; 7] 1 3); lia. Defined.

(** C4 (as stated): an empty input with [page >= 1] would always have
    [has_prev = false].  It does not: on page 2 of an empty list
    [has_prev] is [True]. *)
Lemma Paginator_empty_has_prev_counterexample :
  ~ (1 <= 2 -> 1 <= 1 ->
     returns (__init__ (@nil nat) 2 1) (fun self =>
       total_pages self = 0 /\ items self = [] /\
       has_next self = false /\ has_prev self = false)).
Proof.
  intros H. specialize (H ltac:(lia) ltac:(lia)). simpl in H.
  destruct H as (_ & _ & _ & H). discriminate H.
Qed.

(** C4 (amended): for the empty list, [page >= 1] and [page_size >= 1] the
    constructed Paginator has [total_pages = 0], [items] empty and
    [has_next = false]; [has_prev] is [page > 1], hence false exactly on
    page 1. *)
Theorem Paginator_empty (T : Type) (page0 page_size0 : Z) :
  1 <= page0 -> 1 <= page_size0 ->
  returns (__init__ (@nil T) page0 page_size0) (fun self =>
    total self = 0 /\ total_pages self = 0 /\ items self = [] /\
    has_next self = false /\
    has_prev self = (1 <? page0) /\
    (has_prev self = false <-> page0 = 1)).
Proof.
  intros Hp Hs. init_ok. change (len (@nil T)) with 0.
  replace ((0 + page_size0 - 1) / page_size0) with 0
    by (symmetry; apply Z.div_small; lia).
  repeat split.
  - rewrite slice_nonneg by nia. rewrite skipn_nil. apply firstn_nil.
  - apply Z.ltb_ge. lia.
  - intros H. apply Z.ltb_ge in H. lia.
  - intros ->. reflexivity.
Qed.

Lemma Paginator_empty_witness :
  returns (__init__ (@nil nat) 3 20) (fun self =>
    total self = 0 /\ total_pages self = 0 /\ items self = [] /\
    has_next self = false /\
    has_prev self = (1 <? 3) /\
    (has_prev self = false <-> 3 = 1)).
Proof. apply (Paginator_empty nat 3 20); lia. Defined.

(** C5: for a non-empty list of length [N], [page_size >= 1] and a page in
    [[1, total_pages]], [len(items) = page_size], except on the last page
    ([page = total_pages]) where [len(items) = N - (total_pages - 1) *
    page_size]. *)
Theorem Paginator_page_length (T : Type) (l : list T) (page0 page_size0 : Z) :
  l <> [] -> 1 <= page_size0 ->
  returns (__init__ l page0 page_size0)
          (fun self => 1 <= page0 <= total_pages self) ->
  returns (__init__ l page0 page_size0) (fun self =>
    len (items self)
    = if page0 =? total_pages self
      then Z.of_nat (List.length l) - (total_pages self - 1) * page_size0
      else page_size0).
Proof.
  intros Hne Hs. init_ok. intros Hp.
  pose proof (len_nonneg l) as Hl.
  pose proof (page_count_bounds (len l) page_size0 Hs Hl) as B.
  set (tp := (len l + page_size0 - 1) / page_size0) in *.
  rewrite length_slice_nonneg by nia.
  fold (len l).
  destruct (Z.eqb_spec page0 tp) as [->|Hlast].
  - nia.
  - assert (page0 * page_size0 <= (tp - 1) * page_size0) by nia.
    nia.
Qed.

Lemma Paginator_page_length_witness :
  returns (__init__ [1; 2; 3; 4; 5; 6; 7; 8; 9; 10] 4 3) (fun self =>
    len (items self)
    = if 4 =? total_pages self
      then Z.of_nat (List.length [1; 2; 3; 4; 5; 6; 7; 8; 9; 10])
           - (total_pages self - 1) * 3
      else 3).
Proof.
  apply (Paginator_page_length Z [1; 2; 3; 4; 5; 6; 7; 8; 9; 10] 4 3).
  - discriminate.
  - lia.
  - simpl. vm_compute. split; discriminate.
Defined.

(** C6: for [page_size >= 1] and [page > total_pages], [items] is empty and
    [has_next] is false. *)
Theorem Paginator_beyond_last (T : Type) (l : list T) (page0 page_size0 : Z) :
  1 <= page_size0 ->
  returns (__init__ l page0 page_size0) (fun self => total_pages self < page0) ->
  returns (__init__ l page0 page_size0) (fun self =>
    items self = [] /\ has_next self = false).
Proof.
  intros Hs. init_ok. intros Hp.
  pose proof (len_nonneg l) as Hl.
  pose proof (page_count_bounds (len l) page_size0 Hs Hl) as B.
  set (tp := (len l + page_size0 - 1) / page_size0) in *.
  assert (0 <= tp) by nia.
  split.
  - rewrite slice_nonneg by nia.
    rewrite skipn_all2 by (unfold len in *; nia).
    apply firstn_nil.
  - apply Z.ltb_ge. lia.
Qed.

Lemma Paginator_beyond_last_witness :
  returns (__init__ [1; 2; 3; 4; 5] 4 2) (fun self =>
    items self = [] /\ has_next self = false).
Proof.
  apply (Paginator_beyond_last Z [1; 2; 3; 4; 5] 4 2).
  - lia.
  - vm_compute. reflexivity.
Defined.

(** C7 (as stated): for every integer [page], [has_prev] would be false
    iff [page = 1].  On page 0 [has_prev] is false although [page <> 1]. *)
Lemma Paginator_has_prev_iff_counterexample :
  ~ (1 <= 1 ->
     returns (__init__ [7] 0 1) (fun self =>
       (has_prev self = false <-> 0 = 1) /\
       (has_next self = false <-> 0 >= total_pages self))).
Proof.
  intros H. specialize (H ltac:(lia)). simpl in H.
  destruct H as [[H _] _]. specialize (H eq_refl). discriminate H.
Qed.

(** C7 (amended): for every integer [page] and [page_size >= 1],
    [has_prev] is false iff [page <= 1] (so, for [page >= 1], iff
    [page = 1]), and [has_next] is false iff [page >= total_pages]. *)
Theorem Paginator_has_prev_has_next (T : Type) (l : list T)
  (page0 page_size0 : Z) :
  1 <= page_size0 ->
  returns (__init__ l page0 page_size0) (fun self =>
    (has_prev self = false <-> page0 <= 1) /\
    (1 <= page0 -> (has_prev self = false <-> page0 = 1)) /\
    (has_next self = false <-> page0 >= total_pages self)).
Proof.
  intros Hs. init_ok. rewrite !Z.ltb_ge. repeat split; intros; lia.
Qed.

Lemma Paginator_has_prev_has_next_witness :
  returns (__init__ [1; 2; 3] 2 2) (fun self =>
    (has_prev self = false <-> 2 <= 1) /\
    (1 <= 2 -> (has_prev self = false <-> 2 = 1)) /\
    (has_next self = false <-> 2 >= total_pages self)).
Proof. apply (Paginator_has_prev_has_next Z [1; 2; 3] 2 2); lia. Defined.

(** C10: with [page = 0] and [page_size >= 1] the slice runs from
    [-page_size] to [0], and [items] is empty. *)
Theorem Paginator_page_zero (T : Type) (l : list T) (page_size0 : Z) :
  1 <= page_size0 ->
  returns (__init__ l 0 page_size0) (fun self => items self = []).
Proof.
  intros Hs. init_ok.
  replace ((0 - 1) * page_size0 + page_size0) with 0 by lia.
  apply slice_stop_zero. lia.
Qed.

Lemma Paginator_page_zero_witness :
  returns (__init__ [1; 2; 3; 4; 5] 0 2) (fun self => items self = []).
Proof. apply (Paginator_page_zero Z [1; 2; 3; 4; 5] 2); lia. Defined.

(** *** Pages partition the input *)

Lemma firstn_add_skipn (T : Type) (a b : nat) (l : list T) :
  firstn (a + b) l = firstn a l ++ firstn b (skipn a l).
Proof.
  revert l. induction a as [|a IH]; intros l; [reflexivity|].
  destruct l as [|x l]; simpl.
  - now rewrite firstn_nil.
  - now rewrite IH.
Qed.

Lemma concat_chunks (T : Type) (l : list T) (c n : nat) :
  List.concat (map (fun j => firstn c (skipn (j * c) l)) (seq 0 n))
  = firstn (n * c) l.
Proof.
  induction n as [|n IH]; [reflexivity|].
  rewrite seq_S, map_app, concat_app, IH. simpl.
  rewrite app_nil_r, <- firstn_add_skipn.
  f_equal. lia.
Qed.

Lemma mapM_Ok (A B : Type) (f : A -> result B) (g : A -> B) (l : list A) :
  (forall x, In x l -> f x = Ok (g x)) -> mapM f l = Ok (map g l).
Proof.
  induction l as [|x xs IH]; intros Hf; [reflexivity|].
  simpl. rewrite (Hf x (or_introl eq_refl)). simpl.
  rewrite IH by (intros y Hy; apply Hf; now right).
  reflexivity.
Qed.

(** C9: for [page_size >= 1], concatenating the [items] of pages
    [1, 2, ..., total_pages] in order gives back the input list. *)
Theorem Paginator_pages_partition (T : Type) (l : list T) (page_size0 : Z) :
  1 <= page_size0 ->
  returns (first <- __init__ l 1 page_size0 ;;
           mapM (fun p => __init__ l p page_size0)
                (range 1 (total_pages first + 1)))
          (fun pages => List.concat (map items pages) = l).
Proof.
  intros Hs.
  pose proof (len_nonneg l) as Hl.
  pose proof (page_count_bounds (len l) page_size0 Hs Hl) as B.
  rewrite init_returns by lia. cbn [bind total_pages].
  set (tp := (len l + page_size0 - 1) / page_size0) in *.
  assert (Htp : 0 <= tp) by nia.
  erewrite mapM_Ok by (intros p _; apply init_returns; lia).
  cbn [returns]. unfold range. rewrite !map_map. cbn [items].
  replace (tp + 1 - 1) with tp by lia.
  erewrite map_ext.
  - rewrite (concat_chunks T l (Z.to_nat page_size0) (Z.to_nat tp)).
    apply firstn_all2. unfold len in B. nia.
  - intros j. cbv beta.
    replace (1 + Z.of_nat j - 1) with (Z.of_nat j) by lia.
    rewrite slice_nonneg by nia.
    replace (Z.of_nat j * page_size0 + page_size0 - Z.of_nat j * page_size0)
      with page_size0 by lia.
    rewrite Z2Nat.inj_mul, Nat2Z.id by lia. reflexivity.
Qed.

Lemma Paginator_pages_partition_witness :
  returns (first <- __init__ [1; 2; 3; 4; 5; 6; 7] 1 3 ;;
           mapM (fun p => __init__ [1; 2; 3; 4; 5; 6; 7] p 3)
                (range 1 (total_pages first + 1)))
          (fun pages => List.concat (map items pages) = [1; 2; 3; 4; 5; 6; 7]).
Proof. apply (Paginator_pages_partition Z [1; 2; 3; 4; 5; 6; 7] 3); lia. Defined.

(** ** Random strings and API keys *)

Lemma alphabet_alnum :
  Forall (fun c => is_alnum c = true) (ascii_letters ++ digits).
Proof.
  apply Forall_forall. apply forallb_forall. vm_compute. reflexivity.
Qed.

Lemma length_join (chars : list ascii) :
  String.length (join chars) = List.length chars.
Proof.
  unfold join. induction chars as [|c cs IH]; simpl; [reflexivity|].
  now rewrite IH.
Qed.

Lemma length_range (lo hi : Z) :
  List.length (range lo hi) = Z.to_nat (hi - lo).
Proof. unfold range. now rewrite length_map, length_seq. Qed.

Lemma tape_random_in_range : randbelow_in_range (list nat).
Proof.
  intros n s Hn. simpl. apply Nat.mod_upper_bound. lia.
Qed.

Section SecretsFacts.
Context {rng : Type} `{SystemRandom rng}.
Hypothesis in_range : randbelow_in_range rng.

(** A choice from a non-empty sequence returns one of its elements. *)
Lemma choice_returns (A : Type) (seq : list A) (s : rng) :
  seq <> [] -> returns (fst (choice seq s)) (fun x => In x seq).
Proof.
  intros Hne. unfold choice.
  assert (Hpos : (0 < List.length seq)%nat)
    by (destruct seq; [contradiction|simpl; lia]).
  pose proof (in_range (List.length seq) s Hpos) as Hlt.
  destruct seq as [|a seq']; [contradiction|].
  remember (a :: seq') as xs eqn:Exs. clear Exs.
  destruct (randbelow (List.length xs) s) as [i s'] eqn:E.
  cbn [fst] in Hlt.
  destruct (nth_error xs i) as [x|] eqn:Hx; cbn [fst returns].
  - eapply nth_error_In; eassumption.
  - apply nth_error_None in Hx. lia.
Qed.

(** Drawing once per element of [l] returns as many elements of [seq]. *)
Lemma forM_choice_returns (A B : Type) (seq : list A) (l : list B) (s : rng) :
  seq <> [] ->
  returns (fst (forM l (fun _ => choice seq) s)) (fun xs =>
    List.length xs = List.length l /\ Forall (fun x => In x seq) xs).
Proof.
  intros Hne. revert s.
  induction l as [|b l IH]; intros s; simpl.
  - split; [reflexivity|constructor].
  - unfold rbind.
    pose proof (choice_returns A seq s Hne) as Hc.
    destruct (choice seq s) as [[x|e] s1]; simpl in Hc; [|contradiction].
    specialize (IH s1).
    destruct (forM l (fun _ => choice seq) s1) as [[xs|e] s2];
      simpl in IH; [|contradiction].
    simpl. destruct IH as [IHl IHf].
    split; [now rewrite IHl|now constructor].
Qed.

Lemma generate_random_string_returns (length : Z) (s : rng) :
  returns (fst (generate_random_string length s)) (fun r =>
    String.length r = Z.to_nat length /\
    Forall (fun c => is_alnum c = true) (list_ascii_of_string r)).
Proof.
  unfold generate_random_string, rbind.
  assert (Hne : ascii_letters ++ digits <> []).
  { intros E. apply (f_equal (@List.length ascii)) in E.
    vm_compute in E. discriminate E. }
  pose proof (forM_choice_returns ascii Z (ascii_letters ++ digits)
                (range 0 length) s Hne) as Hf.
  destruct (forM (range 0 length) (fun _ => choice (ascii_letters ++ digits)) s)
    as [[chars|e] s1]; cbn [fst returns] in Hf; [|contradiction].
  destruct Hf as [Hl Hin]. cbn [fst returns ret].
  rewrite length_join, Hl, length_range, Z.sub_0_r.
  split; [reflexivity|].
  unfold join. rewrite list_ascii_of_string_of_list_ascii.
  pose proof alphabet_alnum as Ha.
  rewrite Forall_forall in *.
  intros c Hc. apply Ha, Hin, Hc.
Qed.
End SecretsFacts.

(** C8: whatever the random source draws, [generate_api_key()] returns the
    fixed prefix followed by exactly 64 characters, each an ASCII letter or
    digit; and for [length >= 0], [generate_random_string(length)] returns
    exactly [length] characters, each an ASCII letter or digit. *)
Theorem generate_api_key_format (rng : Type) (R : SystemRandom rng)
  (s : rng) (length : Z) :
  randbelow_in_range rng -> 0 <= length ->
  returns (fst (generate_api_key s)) (fun key =>
    exists random_part,
      key = ("aimpk_" ++ random_part)%string /\
      String.length random_part = 64%nat /\
      Forall (fun c => is_alnum c = true) (list_ascii_of_string random_part))
  /\
  returns (fst (generate_random_string length s)) (fun r =>
    Z.of_nat (String.length r) = length /\
    Forall (fun c => is_alnum c = true) (list_ascii_of_string r)).
Proof.
  intros Hr Hlen. split.
  - unfold generate_api_key, rbind.
    pose proof (generate_random_string_returns Hr 64 s) as Hg.
    destruct (generate_random_string 64 s) as [[r|e] s1];
      simpl in Hg; [|contradiction].
    simpl. exists r. destruct Hg as [Hl Hf].
    split; [reflexivity|split; assumption].
  - pose proof (generate_random_string_returns Hr length s) as Hg.
    destruct (fst (generate_random_string length s)) as [r|e];
      simpl in *; [|contradiction].
    destruct Hg as [Hl Hf]. split; [lia|assumption].
Qed.

Lemma generate_api_key_format_witness :
  returns (fst (generate_api_key sample_tape)) (fun key =>
    exists random_part,
      key = ("aimpk_" ++ random_part)%string /\
      String.length random_part = 64%nat /\
      Forall (fun c => is_alnum c = true) (list_ascii_of_string random_part))
  /\
  returns (fst (generate_random_string 5 sample_tape)) (fun r =>
    Z.of_nat (String.length r) = 5 /\
    Forall (fun c => is_alnum c = true) (list_ascii_of_string r)).
Proof.
  apply (generate_api_key_format (list nat) tape_random sample_tape 5).
  - apply tape_random_in_range.
  - lia.
Defined.

Example generate_random_string_tape :
  fst (generate_random_string 5 sample_tape) = Ok "di9oa"%string.
Proof. vm_compute. reflexivity. Qed.

(** ** Expiry times *)

(** With neither argument the offset is 30 days. *)
Lemma get_expiry_time_default (now : datetime) :
  get_expiry_time now None None
  = (d <- timedelta_days (Some 30) ;; datetime_add now d).
Proof. reflexivity. Qed.

(** While the sum stays within the years 1 to 9999, the default expiry is
    the clock reading plus 30 days. *)
Lemma get_expiry_time_default_value (now : datetime) :
  0 < now / US_PER_DAY -> (now + 30 * US_PER_DAY) / US_PER_DAY <= MAXORDINAL ->
  get_expiry_time now None None = Ok (now + 30 * US_PER_DAY).
Proof.
  intros Hlo Hhi. rewrite get_expiry_time_default.
  cbn [timedelta_days]. unfold timedelta_of_us.
  rewrite Z.div_mul by (vm_compute; discriminate).
  cbn [bind andb Z.leb Z.compare Z.opp MAX_DELTA_DAYS Pos.compare
       Pos.compare_cont]. unfold datetime_add.
  assert (0 < (now + 30 * US_PER_DAY) / US_PER_DAY).
  { rewrite Z.div_add by (vm_compute; discriminate). lia. }
  destruct (Z.ltb_spec 0 ((now + 30 * US_PER_DAY) / US_PER_DAY)); [|lia].
  destruct (Z.leb_spec ((now + 30 * US_PER_DAY) / US_PER_DAY) MAXORDINAL);
    [reflexivity|lia].
Qed.

(** A non-zero [days] is the only offset applied, whatever [hours] is. *)
Lemma get_expiry_time_days_wins (now : datetime) (days : Z) (hours : option Z) :
  days <> 0 ->
  get_expiry_time now (Some days) hours
  = (d <- timedelta_days (Some days) ;; datetime_add now d).
Proof.
  intros Hd. unfold get_expiry_time, truthy.
  destruct (Z.eqb_spec days 0); [contradiction|reflexivity].
Qed.

(** [days = 0] is falsy: the call behaves as if [days] had not been given. *)
Lemma get_expiry_time_zero_days (now : datetime) (hours : option Z) :
  get_expiry_time now (Some 0) hours = get_expiry_time now None hours.
Proof. reflexivity. Qed.

(** C3: [days] given is meant to win over [hours].  At midnight of
    2024-01-01, [get_expiry_time(days=0, hours=5)] returns the clock reading
    plus 5 hours, not plus 0 days, and [get_expiry_time(days=0)] returns the
    clock reading plus 30 days. *)
Theorem get_expiry_time_zero_days_ignored :
  get_expiry_time new_year_2024 (Some 0) (Some 5)
  = Ok (new_year_2024 + 5 * US_PER_HOUR) /\
  (d <- timedelta_days (Some 0) ;; datetime_add new_year_2024 d)
  = Ok new_year_2024 /\
  get_expiry_time new_year_2024 (Some 0) None
  = Ok (new_year_2024 + 30 * US_PER_DAY).
Proof. vm_compute. repeat split. Qed.

(** ** Further properties of the Paginator *)

Lemma len_pos_iff (T : Type) (l : list T) : l <> [] <-> 0 < len l.
Proof.
  unfold len. destruct l; simpl; split; intros H; try lia; try congruence.
Qed.

(** Whatever the bounds, a slice is a run of consecutive elements of the
    list; when the bounds are in order it is no longer than their
    distance. *)
Lemma slice_segment (T : Type) (l : list T) (start stop : Z) :
  start <= stop ->
  (exists pre post, l = pre ++ slice l start stop ++ post) /\
  len (slice l start stop) <= stop - start.
Proof.
  intros Hle. unfold slice. pose proof (len_nonneg l) as Hl.
  set (lo := adjust_index start (len l)).
  set (hi := adjust_index stop (len l)).
  assert (Hd : hi - lo <= stop - start).
  { subst lo hi. unfold adjust_index.
    destruct (Z.ltb_spec start 0); destruct (Z.ltb_spec stop 0);
      repeat match goal with
             | |- context [if ?a <? ?b then _ else _] =>
                 destruct (Z.ltb_spec a b)
             | |- context [if ?a <=? ?b then _ else _] =>
                 destruct (Z.leb_spec a b)
             end; lia. }
  destruct (Z.leb_spec hi lo) as [Hc|Hc].
  - split; [exists [], l; reflexivity|]. unfold len. simpl. lia.
  - split.
    + exists (firstn (Z.to_nat lo) l),
             (skipn (Z.to_nat (hi - lo)) (skipn (Z.to_nat lo) l)).
      now rewrite firstn_skipn, firstn_skipn.
    + unfold len. rewrite length_firstn. lia.
Qed.

(** A page at or after page 0 shows something exactly when it is one of
    the pages [1 .. total_pages]. *)
Lemma page_nonempty_iff (T : Type) (l : list T) (page0 page_size0 : Z) :
  1 <= page_size0 -> 0 <= page0 ->
  slice l ((page0 - 1) * page_size0) ((page0 - 1) * page_size0 + page_size0)
  <> []
  <-> 1 <= page0 <= (len l + page_size0 - 1) / page_size0.
Proof.
  intros Hs Hp.
  pose proof (len_nonneg l) as Hl.
  pose proof (page_count_bounds (len l) page_size0 Hs Hl) as B.
  set (tp := (len l + page_size0 - 1) / page_size0) in *.
  destruct (Z.eq_dec page0 0) as [->|Hne].
  - replace ((0 - 1) * page_size0 + page_size0) with 0 by lia.
    rewrite slice_stop_zero by lia. split; [congruence|lia].
  - rewrite len_pos_iff, length_slice_nonneg by nia.
    split; intros H.
    + split; [lia|]. destruct (Z.le_gt_cases page0 tp); [assumption|].
      assert (tp * page_size0 <= (page0 - 1) * page_size0) by nia. lia.
    + assert ((page0 - 1) * page_size0 <= (tp - 1) * page_size0) by nia. lia.
Qed.

(** X1: the constructor raises exactly when [page_size] is zero, and then
    the error is [ZeroDivisionError]; any other page size, negative ones
    included, and any page number give a Paginator. *)
Theorem Paginator_raises_iff_page_size_zero (T : Type) (l : list T)
  (page0 page_size0 : Z) :
  (__init__ l page0 page_size0 = Raise ZeroDivisionError <-> page_size0 = 0) /\
  ((exists self, __init__ l page0 page_size0 = Ok self) <-> page_size0 <> 0).
Proof.
  destruct (Z.eq_dec page_size0 0) as [->|Hne].
  - assert (E : __init__ l page0 0 = Raise ZeroDivisionError) by reflexivity.
    rewrite E. split; split; try tauto; try congruence.
    intros [self Hself]. discriminate Hself.
  - rewrite init_returns by assumption.
    split; split; try tauto; try congruence.
    intros _. eexists. reflexivity.
Qed.

(** X2: for every integer [page], negative ones included, and
    [page_size >= 1], [items] is a run of consecutive elements of the input
    and has at most [page_size] elements. *)
Theorem Paginator_items_segment (T : Type) (l : list T) (page0 page_size0 : Z) :
  1 <= page_size0 ->
  returns (__init__ l page0 page_size0) (fun self =>
    (exists pre post, l = pre ++ items self ++ post) /\
    len (items self) <= page_size0).
Proof.
  intros Hs. init_ok.
  destruct (slice_segment T l ((page0 - 1) * page_size0)
              ((page0 - 1) * page_size0 + page_size0) ltac:(lia))
    as [Hseg Hlen].
  split; [exact Hseg|lia].
Qed.

Lemma Paginator_items_segment_witness :
  returns (__init__ [1; 2; 3; 4; 5; 6; 7] (-1) 3) (fun self =>
    (exists pre post, [1; 2; 3; 4; 5; 6; 7] = pre ++ items self ++ post) /\
    len (items self) <= 3).
Proof. apply (Paginator_items_segment Z [1; 2; 3; 4; 5; 6; 7] (-1) 3); lia. Defined.

(** X3: for [page >= 0] and [page_size >= 1], [items] is non-empty exactly
    when [1 <= page <= total_pages]. *)
Theorem Paginator_items_nonempty_iff (T : Type) (l : list T)
  (page0 page_size0 : Z) :
  1 <= page_size0 -> 0 <= page0 ->
  returns (__init__ l page0 page_size0) (fun self =>
    items self <> [] <-> 1 <= page0 <= total_pages self).
Proof.
  intros Hs Hp. init_ok. now apply page_nonempty_iff.
Qed.

Lemma Paginator_items_nonempty_iff_witness :
  returns (__init__ [1; 2; 3; 4; 5; 6; 7] 3 3) (fun self =>
    items self <> [] <-> 1 <= 3 <= total_pages self).
Proof. apply (Paginator_items_nonempty_iff Z [1; 2; 3; 4; 5; 6; 7] 3 3); lia. Defined.

(** X4: for [page >= 0] and [page_size >= 1], [has_next] is true exactly
    when the Paginator built for the following page has items to show. *)
Theorem Paginator_has_next_iff_next_page (T : Type) (l : list T)
  (page0 page_size0 : Z) :
  1 <= page_size0 -> 0 <= page0 ->
  returns (self <- __init__ l page0 page_size0 ;;
           next <- __init__ l (page0 + 1) page_size0 ;;
           Ok (self, next))
          (fun '(self, next) => has_next self = true <-> items next <> []).
Proof.
  intros Hs Hp. rewrite !init_returns by lia.
  cbn [bind returns]. unfold has_next. cbn [page total_pages items].
  rewrite page_nonempty_iff by lia. rewrite Z.ltb_lt. lia.
Qed.

Lemma Paginator_has_next_iff_next_page_witness :
  returns (self <- __init__ [1; 2; 3; 4; 5; 6; 7] 2 3 ;;
           next <- __init__ [1; 2; 3; 4; 5; 6; 7] (2 + 1) 3 ;;
           Ok (self, next))
          (fun '(self, next) => has_next self = true <-> items next <> []).
Proof.
  apply (Paginator_has_next_iff_next_page Z [1; 2; 3; 4; 5; 6; 7] 2 3); lia.
Defined.

(** X5: the element at (0-based) position [i] of the input is shown on page
    [i // page_size + 1] at offset [i % page_size]; past the end of the
    input neither has an element. *)
Theorem Paginator_locates_element (T : Type) (l : list T) (i : nat)
  (page_size0 : Z) :
  1 <= page_size0 ->
  returns (__init__ l (Z.of_nat i / page_size0 + 1) page_size0) (fun self =>
    nth_error (items self) (Z.to_nat (Z.of_nat i mod page_size0))
    = nth_error l i).
Proof.
  intros Hs. init_ok.
  pose proof (Z.div_mod (Z.of_nat i) page_size0 ltac:(lia)) as E.
  pose proof (Z.mod_pos_bound (Z.of_nat i) page_size0 ltac:(lia)) as B.
  assert (Hq : 0 <= Z.of_nat i / page_size0) by (apply Z.div_pos; lia).
  set (q := Z.of_nat i / page_size0) in *.
  set (r := Z.of_nat i mod page_size0) in *.
  replace (q + 1 - 1) with q by lia.
  rewrite slice_nonneg by nia.
  rewrite nth_error_firstn, nth_error_skipn.
  destruct (Nat.ltb_spec (Z.to_nat r) (Z.to_nat (q * page_size0 + page_size0
                                                 - q * page_size0))); [|lia].
  f_equal. nia.
Qed.

Lemma Paginator_locates_element_witness :
  returns (__init__ [10; 20; 30; 40; 50; 60; 70] (Z.of_nat 4 / 3 + 1) 3)
    (fun self =>
       nth_error (items self) (Z.to_nat (Z.of_nat 4 mod 3))
       = nth_error [10; 20; 30; 40; 50; 60; 70] 4).
Proof.
  apply (Paginator_locates_element Z [10; 20; 30; 40; 50; 60; 70] 4 3); lia.
Defined.

(** X6: a negative [page] is not rejected.  With [page_size >= 1] the slice
    bounds are both negative and count from the end of the input: [items]
    holds the positions from [N + (page - 1) * page_size] up to
    [N + page * page_size], each clipped at 0; [has_prev] is false and
    [has_next] is true. *)
Theorem Paginator_negative_page (T : Type) (l : list T) (page0 page_size0 : Z) :
  1 <= page_size0 -> page0 < 0 ->
  let lo := Z.max 0 (len l + (page0 - 1) * page_size0) in
  let hi := Z.max 0 (len l + page0 * page_size0) in
  returns (__init__ l page0 page_size0) (fun self =>
    items self = firstn (Z.to_nat (hi - lo)) (skipn (Z.to_nat lo) l) /\
    has_prev self = false /\ has_next self = true).
Proof.
  intros Hs Hp lo hi. init_ok.
  pose proof (len_nonneg l) as Hl.
  pose proof (page_count_bounds (len l) page_size0 Hs Hl) as B.
  split; [|split].
  - unfold slice.
    assert (Elo : adjust_index ((page0 - 1) * page_size0) (len l) = lo).
    { unfold adjust_index, lo.
      destruct (Z.ltb_spec ((page0 - 1) * page_size0) 0); [|nia].
      destruct (Z.ltb_spec ((page0 - 1) * page_size0 + len l) 0); lia. }
    assert (Ehi : adjust_index ((page0 - 1) * page_size0 + page_size0) (len l)
                  = hi).
    { unfold adjust_index, hi.
      destruct (Z.ltb_spec ((page0 - 1) * page_size0 + page_size0) 0); [|nia].
      destruct (Z.ltb_spec ((page0 - 1) * page_size0 + page_size0 + len l) 0);
        lia. }
    rewrite Elo, Ehi.
    destruct (Z.leb_spec hi lo); [|reflexivity].
    replace (Z.to_nat (hi - lo)) with 0%nat by lia. reflexivity.
  - apply Z.ltb_ge. lia.
  - apply Z.ltb_lt. nia.
Qed.

Lemma Paginator_negative_page_witness :
  returns (__init__ [1; 2; 3; 4; 5; 6; 7; 8; 9; 10] (-1) 3) (fun self =>
    items self
    = firstn (Z.to_nat (Z.max 0 (len [1; 2; 3; 4; 5; 6; 7; 8; 9; 10] + -1 * 3)
                        - Z.max 0 (len [1; 2; 3; 4; 5; 6; 7; 8; 9; 10]
                                   + (-1 - 1) * 3)))
        (skipn (Z.to_nat (Z.max 0 (len [1; 2; 3; 4; 5; 6; 7; 8; 9; 10]
                                   + (-1 - 1) * 3)))
           [1; 2; 3; 4; 5; 6; 7; 8; 9; 10]) /\
    has_prev self = false /\ has_next self = true).
Proof.
  apply (Paginator_negative_page Z [1; 2; 3; 4; 5; 6; 7; 8; 9; 10] (-1) 3); lia.
Defined.

Example Paginator_negative_page_example :
  returns (__init__ [1; 2; 3; 4; 5; 6; 7; 8; 9; 10] (-1) 3)
          (fun self => items self = [5; 6; 7]).
Proof. reflexivity. Qed.

(** X7: a negative [page_size] is not rejected either: page 1 then shows
    the input without its last [-page_size] elements. *)
Theorem Paginator_negative_page_size (T : Type) (l : list T) (page_size0 : Z) :
  page_size0 < 0 ->
  returns (__init__ l 1 page_size0) (fun self =>
    items self = firstn (Z.to_nat (len l + page_size0)) l).
Proof.
  intros Hs. init_ok. pose proof (len_nonneg l) as Hl.
  unfold slice. replace ((1 - 1) * page_size0) with 0 by lia.
  assert (Elo : adjust_index 0 (len l) = 0).
  { rewrite adjust_index_nonneg by lia. lia. }
  assert (Ehi : adjust_index (0 + page_size0) (len l)
                = Z.max 0 (len l + page_size0)).
  { unfold adjust_index.
    destruct (Z.ltb_spec (0 + page_size0) 0); [|lia].
    destruct (Z.ltb_spec (0 + page_size0 + len l) 0); lia. }
  rewrite Elo, Ehi.
  destruct (Z.leb_spec (Z.max 0 (len l + page_size0)) 0).
  - replace (Z.to_nat (len l + page_size0)) with 0%nat by lia. reflexivity.
  - simpl skipn. f_equal. lia.
Qed.

Lemma Paginator_negative_page_size_witness :
  returns (__init__ [1; 2; 3; 4; 5] 1 (-2)) (fun self =>
    items self = firstn (Z.to_nat (len [1; 2; 3; 4; 5] + -2)) [1; 2; 3; 4; 5]).
Proof. apply (Paginator_negative_page_size Z [1; 2; 3; 4; 5] (-2)); lia. Defined.

(** X8: when the whole non-empty input fits in one page, page 1 shows all
    of it, there is exactly one page, and neither a next nor a previous
    one. *)
Theorem Paginator_single_page (T : Type) (l : list T) (page_size0 : Z) :
  l <> [] -> len l <= page_size0 ->
  returns (__init__ l 1 page_size0) (fun self =>
    items self = l /\ total_pages self = 1 /\
    has_next self = false /\ has_prev self = false).
Proof.
  intros Hne Hfit. apply len_pos_iff in Hne.
  init_ok. replace ((1 - 1) * page_size0) with 0 by lia.
  assert (Etp : (len l + page_size0 - 1) / page_size0 = 1).
  { symmetry. apply (Z.div_unique _ _ 1 (len l - 1)); lia. }
  rewrite Etp. repeat split.
  rewrite slice_nonneg by lia. simpl skipn.
  apply firstn_all2. unfold len in *. lia.
Qed.

Lemma Paginator_single_page_witness :
  returns (__init__ [1; 2; 3] 1 20) (fun self =>
    items self = [1; 2; 3] /\ total_pages self = 1 /\
    has_next self = false /\ has_prev self = false).
Proof.
  apply (Paginator_single_page Z [1; 2; 3] 20).
  - discriminate.
  - vm_compute. discriminate.
Defined.

(** ** Further properties of the expiry helpers *)

Lemma US_PER_DAY_value : US_PER_DAY = 86400000000.
Proof. reflexivity. Qed.

Lemma US_PER_HOUR_value : US_PER_HOUR = 3600000000.
Proof. reflexivity. Qed.

(** An offset that leads from one representable instant to another is a
    representable [timedelta], and adding it does not overflow. *)
Lemma offset_in_range (now : datetime) (us : Z) :
  in_datetime_range now -> in_datetime_range (now + us) ->
  (d <- timedelta_of_us us ;; datetime_add now d) = Ok (now + us).
Proof.
  unfold in_datetime_range, timedelta_of_us, datetime_add.
  rewrite US_PER_DAY_value. unfold MAXORDINAL, MAX_DELTA_DAYS.
  intros Hnow Hres.
  assert (Hd : -999999999 <= us / 86400000000 <= 999999999).
  { pose proof (Z.div_mod now 86400000000 ltac:(lia)).
    pose proof (Z.mod_pos_bound now 86400000000 ltac:(lia)).
    pose proof (Z.div_mod (now + us) 86400000000 ltac:(lia)).
    pose proof (Z.mod_pos_bound (now + us) 86400000000 ltac:(lia)).
    pose proof (Z.div_mod us 86400000000 ltac:(lia)).
    pose proof (Z.mod_pos_bound us 86400000000 ltac:(lia)).
    lia. }
  rewrite (proj2 (andb_true_iff _ _))
    by (split; apply Z.leb_le; lia).
  cbn [bind].
  rewrite (proj2 (andb_true_iff _ _))
    by (split; [apply Z.ltb_lt|apply Z.leb_le]; lia).
  reflexivity.
Qed.

(** An offset that leads out of the years 1 to 9999 overflows. *)
Lemma offset_out_of_range (now : datetime) (us : Z) :
  ~ in_datetime_range (now + us) ->
  (d <- timedelta_of_us us ;; datetime_add now d) = Raise OverflowError.
Proof.
  unfold in_datetime_range, timedelta_of_us, datetime_add. intros Hres.
  destruct ((- MAX_DELTA_DAYS <=? us / US_PER_DAY)
            && (us / US_PER_DAY <=? MAX_DELTA_DAYS)); [|reflexivity].
  cbn [bind].
  destruct (Z.ltb_spec 0 ((now + us) / US_PER_DAY));
    destruct (Z.leb_spec ((now + us) / US_PER_DAY) MAXORDINAL);
    try reflexivity.
  exfalso. apply Hres. lia.
Qed.

(** X9: a non-zero [days] gives the clock reading plus that many days,
    whatever [hours] is, and the result reads as expired exactly at the
    instants strictly after it. *)
Theorem get_expiry_time_days_then_is_expired (now : datetime) (days : Z)
  (hours : option Z) :
  days <> 0 ->
  in_datetime_range now -> in_datetime_range (now + days * US_PER_DAY) ->
  returns (get_expiry_time now (Some days) hours) (fun expiry =>
    expiry = now + days * US_PER_DAY /\
    forall later : datetime,
      is_expired later expiry = true <-> now + days * US_PER_DAY < later).
Proof.
  intros Hd Hnow Hres. rewrite get_expiry_time_days_wins by assumption.
  cbn [timedelta_days]. rewrite offset_in_range by assumption.
  cbn [returns]. split; [reflexivity|].
  intros later. unfold is_expired. apply Z.ltb_lt.
Qed.

Lemma get_expiry_time_days_then_is_expired_witness :
  returns (get_expiry_time new_year_2024 (Some (-1)) (Some 5)) (fun expiry =>
    expiry = new_year_2024 + -1 * US_PER_DAY /\
    forall later : datetime,
      is_expired later expiry = true
      <-> new_year_2024 + -1 * US_PER_DAY < later).
Proof.
  apply (get_expiry_time_days_then_is_expired new_year_2024 (-1) (Some 5)).
  - discriminate.
  - vm_compute. split; discriminate.
  - vm_compute. split; discriminate.
Defined.

(** X10: when [days] is absent or zero, a non-zero [hours] gives the clock
    reading plus that many hours. *)
Theorem get_expiry_time_hours (now : datetime) (days : option Z) (hours : Z) :
  days = None \/ days = Some 0 ->
  hours <> 0 ->
  in_datetime_range now -> in_datetime_range (now + hours * US_PER_HOUR) ->
  get_expiry_time now days (Some hours) = Ok (now + hours * US_PER_HOUR).
Proof.
  intros Hdays Hh Hnow Hres.
  assert (E : get_expiry_time now days (Some hours)
              = (d <- timedelta_hours (Some hours) ;; datetime_add now d)).
  { unfold get_expiry_time.
    destruct Hdays as [-> | ->]; cbn [truthy Z.eqb negb];
      destruct (Z.eqb_spec hours 0); try contradiction; reflexivity. }
  rewrite E. cbn [timedelta_hours]. now apply offset_in_range.
Qed.

Lemma get_expiry_time_hours_witness :
  get_expiry_time new_year_2024 None (Some 12)
  = Ok (new_year_2024 + 12 * US_PER_HOUR).
Proof.
  apply (get_expiry_time_hours new_year_2024 None 12).
  - left. reflexivity.
  - discriminate.
  - vm_compute. split; discriminate.
  - vm_compute. split; discriminate.
Defined.

(** X11: when [days] and [hours] are each absent or zero, the expiry is the
    clock reading plus 30 days: a zero [hours] does not mean "now". *)
Theorem get_expiry_time_falsy_arguments (now : datetime) (days hours : option Z) :
  days = None \/ days = Some 0 ->
  hours = None \/ hours = Some 0 ->
  in_datetime_range now -> in_datetime_range (now + 30 * US_PER_DAY) ->
  get_expiry_time now days hours = Ok (now + 30 * US_PER_DAY).
Proof.
  intros Hdays Hhours Hnow Hres.
  assert (E : get_expiry_time now days hours
              = (d <- timedelta_days (Some 30) ;; datetime_add now d))
    by (destruct Hdays as [-> | ->]; destruct Hhours as [-> | ->];
        reflexivity).
  rewrite E. cbn [timedelta_days]. now apply offset_in_range.
Qed.

Lemma get_expiry_time_falsy_arguments_witness :
  get_expiry_time new_year_2024 None (Some 0)
  = Ok (new_year_2024 + 30 * US_PER_DAY).
Proof.
  apply (get_expiry_time_falsy_arguments new_year_2024 None (Some 0)).
  - left. reflexivity.
  - right. reflexivity.
  - vm_compute. split; discriminate.
  - vm_compute. split; discriminate.
Defined.

(** X12: a non-zero [days] that leads before year 1 or past year 9999
    makes the call raise [OverflowError]. *)
Theorem get_expiry_time_overflow (now : datetime) (days : Z) (hours : option Z) :
  days <> 0 ->
  ~ in_datetime_range (now + days * US_PER_DAY) ->
  get_expiry_time now (Some days) hours = Raise OverflowError.
Proof.
  intros Hd Hres. rewrite get_expiry_time_days_wins by assumption.
  cbn [timedelta_days]. now apply offset_out_of_range.
Qed.

Lemma get_expiry_time_overflow_witness :
  get_expiry_time new_year_2024 (Some 3000000) None = Raise OverflowError.
Proof.
  apply (get_expiry_time_overflow new_year_2024 3000000 None).
  - discriminate.
  - vm_compute. intros [_ H]. apply H. reflexivity.
Defined.

(** ** Further properties of the random strings *)

Section RandomFacts.
Context {rng : Type} `{SystemRandom rng}.

(** A generator over a concatenation draws for the first part, then for
    the second, from the state the first part left. *)
Lemma forM_app (A B : Type) (f : A -> Rand rng B) (l1 l2 : list A) (s : rng) :
  forM (l1 ++ l2) f s
  = (xs <~ forM l1 f ;; ys <~ forM l2 f ;; ret (xs ++ ys)) s.
Proof.
  revert s. induction l1 as [|x l1 IH]; intros s.
  - cbn [app forM]. unfold rbind, ret.
    destruct (forM l2 f s) as [[ys|e] s']; reflexivity.
  - cbn [app forM]. unfold rbind at 1 3 4.
    destruct (f x s) as [[y|e] s1]; [|reflexivity].
    unfold rbind at 1 3. rewrite IH. unfold rbind, ret.
    destruct (forM l1 f s1) as [[xs|e] s2]; [|reflexivity].
    destruct (forM l2 f s2) as [[ys|e] s3]; reflexivity.
Qed.

(** A generator that ignores the loop variable only depends on the number
    of iterations. *)
Lemma forM_const (A A' B : Type) (c : Rand rng B) (l : list A) (l' : list A') :
  List.length l = List.length l' ->
  forM l (fun _ => c) = forM l' (fun _ => c).
Proof.
  revert l'. induction l as [|x l IH]; intros [|x' l'] Hlen;
    try discriminate; [reflexivity|].
  cbn [forM]. rewrite (IH l') by (simpl in Hlen; lia). reflexivity.
Qed.

Lemma join_app (xs ys : list ascii) :
  join (xs ++ ys) = (join xs ++ join ys)%string.
Proof.
  unfold join. induction xs as [|x xs IH]; [reflexivity|].
  simpl. now rewrite IH.
Qed.
End RandomFacts.

(** X13: for [length <= 0] the result is the empty string, nothing is drawn
    from the random source, and nothing is raised; this needs no assumption
    on the random source. *)
Theorem generate_random_string_nonpositive (rng : Type) (R : SystemRandom rng)
  (length : Z) (s : rng) :
  length <= 0 ->
  generate_random_string length s = (Ok EmptyString, s).
Proof.
  intros Hl. unfold generate_random_string, range.
  replace (Z.to_nat (length - 0)) with 0%nat by lia. reflexivity.
Qed.

Lemma generate_random_string_nonpositive_witness :
  generate_random_string (-3) sample_tape = (Ok EmptyString, sample_tape).
Proof.
  apply (generate_random_string_nonpositive (list nat) tape_random (-3)
                                            sample_tape).
  lia.
Defined.

(** X14: a string of [a + b] characters is a string of [a] characters
    followed by a string of [b] characters drawn from where the first
    stopped: same characters, same final state of the random source, same
    error if one is raised. *)
Theorem generate_random_string_add (rng : Type) (R : SystemRandom rng)
  (a b : Z) (s : rng) :
  0 <= a -> 0 <= b ->
  generate_random_string (a + b) s
  = (x <~ generate_random_string a ;;
     y <~ generate_random_string b ;;
     ret (x ++ y)%string) s.
Proof.
  intros Ha Hb. unfold generate_random_string.
  set (c := choice (ascii_letters ++ digits)).
  assert (E : forM (range 0 (a + b)) (fun _ => c)
              = forM (range 0 a ++ range 0 b) (fun _ => c)).
  { apply forM_const. rewrite length_app, !length_range. lia. }
  rewrite E. unfold rbind at 1. rewrite forM_app. unfold rbind, ret.
  destruct (forM (range 0 a) (fun _ => c) s) as [[xs|e] s1]; [|reflexivity].
  destruct (forM (range 0 b) (fun _ => c) s1) as [[ys|e] s2]; [|reflexivity].
  now rewrite join_app.
Qed.

Lemma generate_random_string_add_witness :
  generate_random_string (2 + 3) sample_tape
  = (x <~ generate_random_string 2 ;;
     y <~ generate_random_string 3 ;;
     ret (x ++ y)%string) sample_tape.
Proof.
  apply (generate_random_string_add (list nat) tape_random 2 3 sample_tape); lia.
Defined.

(** ** Pagination query parameters *)

Lemma PaginationParams_valid (p s : Z) :
  1 <= p -> 1 <= s <= 100 ->
  schemas.PaginationParams_init (Some p) (Some s)
  = schemas.Valid {| schemas.page := p; schemas.page_size := s |}.
Proof.
  intros Hp Hs. unfold schemas.PaginationParams_init, schemas.field_errors.
  cbn [schemas.field_value schemas.ge schemas.le schemas.page_field
       schemas.page_size_field].
  destruct (Z.ltb_spec p 1); [lia|].
  destruct (Z.ltb_spec s 1); [lia|].
  destruct (Z.ltb_spec 100 s); [lia|].
  reflexivity.
Qed.

Lemma PaginationParams_invalid (p s : Z) :
  ~ (1 <= p /\ 1 <= s <= 100) ->
  exists e errors,
    schemas.PaginationParams_init (Some p) (Some s)
    = schemas.ValidationError (e :: errors).
Proof.
  intros Hbad. unfold schemas.PaginationParams_init, schemas.field_errors.
  cbn [schemas.field_value schemas.ge schemas.le schemas.page_field
       schemas.page_size_field].
  destruct (Z.ltb_spec p 1); destruct (Z.ltb_spec s 1);
    destruct (Z.ltb_spec 100 s); try lia;
    cbn [app]; eexists; eexists; reflexivity.
Qed.

(** The values a schema object was built from: a given argument or the
    field's default. *)
Lemma PaginationParams_fields (page0 page_size0 : option Z)
  (params : schemas.PaginationParams) :
  schemas.PaginationParams_init page0 page_size0 = schemas.Valid params ->
  1 <= schemas.page params /\ 1 <= schemas.page_size params <= 100 /\
  schemas.page params = schemas.field_value schemas.page_field page0 /\
  schemas.page_size params
  = schemas.field_value schemas.page_size_field page_size0.
Proof.
  unfold schemas.PaginationParams_init, schemas.field_errors.
  set (p := schemas.field_value schemas.page_field page0).
  set (s := schemas.field_value schemas.page_size_field page_size0).
  cbn [schemas.ge schemas.le schemas.page_field schemas.page_size_field].
  destruct (Z.ltb_spec p 1); destruct (Z.ltb_spec s 1);
    destruct (Z.ltb_spec 100 s); cbn [app]; intros E;
    try discriminate E.
  injection E as <-. cbn. lia.
Qed.

(** X15: on given integers, [PaginationParams] is constructed exactly when
    [page >= 1] and [1 <= page_size <= 100], and then carries the given
    values; otherwise construction fails with a non-empty list of
    violations. *)
Theorem PaginationParams_accepts_iff (p s : Z) :
  (schemas.PaginationParams_init (Some p) (Some s)
   = schemas.Valid {| schemas.page := p; schemas.page_size := s |}
   <-> 1 <= p /\ 1 <= s <= 100) /\
  ((exists e errors,
       schemas.PaginationParams_init (Some p) (Some s)
       = schemas.ValidationError (e :: errors))
   <-> ~ (1 <= p /\ 1 <= s <= 100)).
Proof.
  split; split.
  - intros E. apply PaginationParams_fields in E. cbn in E. lia.
  - intros [Hp Hs]. now apply PaginationParams_valid.
  - intros (e & errors & E) [Hp Hs].
    rewrite PaginationParams_valid in E by assumption. discriminate E.
  - apply PaginationParams_invalid.
Qed.

(** X16: parameters accepted by [PaginationParams] are safe for the
    Paginator: the constructor returns, the slice starts at the
    non-negative index [(page - 1) * page_size], shows at most [page_size
    <= 100] items, and [has_prev] is false exactly on page 1. *)
Theorem PaginationParams_then_Paginator (T : Type) (l : list T)
  (page0 page_size0 : option Z) (params : schemas.PaginationParams) :
  schemas.PaginationParams_init page0 page_size0 = schemas.Valid params ->
  returns (__init__ l (schemas.page params) (schemas.page_size params))
    (fun self =>
       0 <= (schemas.page params - 1) * schemas.page_size params /\
       items self
       = firstn (Z.to_nat (schemas.page_size params))
           (skipn (Z.to_nat ((schemas.page params - 1)
                             * schemas.page_size params)) l) /\
       len (items self) <= schemas.page_size params <= 100 /\
       (has_prev self = false <-> schemas.page params = 1)).
Proof.
  intros Hv. apply PaginationParams_fields in Hv.
  destruct Hv as (Hp & Hs & _ & _).
  set (p := schemas.page params) in *.
  set (s := schemas.page_size params) in *.
  init_ok.
  assert (H0 : 0 <= (p - 1) * s) by nia.
  rewrite slice_nonneg by lia.
  replace ((p - 1) * s + s - (p - 1) * s) with s by lia.
  split; [lia|]. split; [reflexivity|]. split; [split|split].
  - unfold len. rewrite length_firstn. lia.
  - lia.
  - intros H. apply Z.ltb_ge in H. lia.
  - intros E. apply Z.ltb_ge. lia.
Qed.

Lemma PaginationParams_then_Paginator_witness :
  returns (__init__ [1; 2; 3; 4; 5; 6; 7] 2 3)
    (fun self =>
       0 <= (2 - 1) * 3 /\
       items self
       = firstn (Z.to_nat 3) (skipn (Z.to_nat ((2 - 1) * 3)) [1; 2; 3; 4; 5; 6; 7]) /\
       len (items self) <= 3 <= 100 /\
       (has_prev self = false <-> 2 = 1)).
Proof.
  apply (PaginationParams_then_Paginator Z [1; 2; 3; 4; 5; 6; 7]
           (Some 2) (Some 3)
           {| schemas.page := 2; schemas.page_size := 3 |}).
  reflexivity.
Defined.

(** X17: with both arguments omitted the parameters are page 1 of size 20,
    and the Paginator built from them shows the first 20 items of the
    input (all of it when shorter), has no previous page, and has a next
    page exactly when the input has more than 20 items. *)
Theorem PaginationParams_defaults (T : Type) (l : list T) :
  schemas.PaginationParams_init None None
  = schemas.Valid {| schemas.page := 1; schemas.page_size := 20 |} /\
  returns (__init__ l 1 20) (fun self =>
    items self = firstn 20 l /\
    has_prev self = false /\
    (has_next self = true <-> 20 < len l)).
Proof.
  split; [reflexivity|]. init_ok.
  pose proof (len_nonneg l) as Hl.
  pose proof (page_count_bounds (len l) 20 ltac:(lia) Hl) as B.
  repeat split.
  - rewrite slice_nonneg by lia. reflexivity.
  - intros H. apply Z.ltb_lt in H. lia.
  - intros H. apply Z.ltb_lt. lia.
Qed.

(** ** The structured data of [log_error] *)

Section DictFacts.
Context {V : Type}.
Implicit Types (d c : logger.dict V) (k : string) (v : V).

Lemma mem_In k ks : mem k ks = true <-> In k ks.
Proof.
  unfold mem. rewrite existsb_exists. split.
  - intros (x & Hx & E). apply String.eqb_eq in E. now subst.
  - intros Hin. exists k. split; [assumption|apply String.eqb_refl].
Qed.

Lemma dict_get_set k k' v d :
  logger.dict_get k (logger.dict_set k' v d)
  = if String.eqb k k' then Some v else logger.dict_get k d.
Proof.
  induction d as [|[k0 v0] d IH]; cbn [logger.dict_set logger.dict_get].
  - reflexivity.
  - destruct (String.eqb_spec k' k0) as [->|Hne]; cbn [logger.dict_get].
    + destruct (String.eqb_spec k k0); reflexivity.
    + rewrite IH. destruct (String.eqb_spec k k0) as [->|]; [|reflexivity].
      destruct (String.eqb_spec k0 k'); [congruence|reflexivity].
Qed.

Lemma dict_get_absent k d : ~ In k (keys d) -> logger.dict_get k d = None.
Proof.
  induction d as [|[k0 v0] d IH]; cbn; intros Hnin; [reflexivity|].
  destruct (String.eqb_spec k k0) as [->|]; [tauto|].
  apply IH. tauto.
Qed.

(** After [d.update(c)] a key of [c] has the value [c] gives it, and any
    other key keeps what it had in [d]. *)
Lemma dict_get_update c : forall d k,
  NoDup (keys c) ->
  logger.dict_get k (logger.dict_update d c)
  = match logger.dict_get k c with
    | Some v => Some v
    | None => logger.dict_get k d
    end.
Proof.
  unfold logger.dict_update.
  induction c as [|[k1 v1] c IH]; intros d k Hnd; [reflexivity|].
  cbn [fold_left fst snd logger.dict_get]. cbn in Hnd.
  apply NoDup_cons_iff in Hnd as [Hnin Hnd].
  rewrite IH by assumption. rewrite dict_get_set.
  destruct (String.eqb_spec k k1) as [->|]; [|reflexivity].
  now rewrite dict_get_absent.
Qed.

Lemma keys_dict_set k v d :
  keys (logger.dict_set k v d)
  = if mem k (keys d) then keys d else keys d ++ [k].
Proof.
  induction d as [|[k0 v0] d IH]; cbn [logger.dict_set]; [reflexivity|].
  unfold mem, keys in *. cbn [map fst existsb].
  destruct (String.eqb_spec k k0) as [->|]; cbn [orb map fst]; [reflexivity|].
  rewrite IH. destruct (existsb (String.eqb k) (map fst d)); reflexivity.
Qed.

(** [d.update(c)] keeps the keys of [d] in place and appends the new keys
    of [c] in the order [c] lists them. *)
Lemma keys_dict_update c : forall d,
  NoDup (keys c) ->
  keys (logger.dict_update d c)
  = keys d ++ filter (fun k => negb (mem k (keys d))) (keys c).
Proof.
  unfold logger.dict_update.
  induction c as [|[k1 v1] c IH]; intros d Hnd.
  - cbn. now rewrite app_nil_r.
  - cbn [fold_left fst snd]. cbn in Hnd.
    apply NoDup_cons_iff in Hnd as [Hnin Hnd].
    rewrite IH by assumption. rewrite keys_dict_set.
    change (keys ((k1, v1) :: c)) with (k1 :: keys c). cbn [filter].
    destruct (mem k1 (keys d)) eqn:Hm; cbn [negb]; [reflexivity|].
    rewrite <- app_assoc. cbn [app]. do 2 f_equal.
    apply filter_ext_in. intros k Hk. f_equal.
    unfold mem. rewrite existsb_app. cbn [existsb].
    destruct (String.eqb_spec k k1) as [->|]; [contradiction|].
    now rewrite !orb_false_r.
Qed.
End DictFacts.

Lemma error_data_update (V : Type) (str_value : string -> V)
  (error_type error_message : string) (context : option (logger.dict V)) :
  logger.error_data str_value error_type error_message context
  = logger.dict_update
      [("error_type"%string, str_value error_type);
       ("error_message"%string, str_value error_message)]
      (context_items context).
Proof. destruct context as [[|kv c]|]; reflexivity. Qed.

(** X18: in the data logged by [log_error], every key of the context has
    the context's value, also the keys [error_type] and [error_message],
    which the context can therefore override; without such an entry they
    hold the exception's type name and message.  No other key is present. *)
Theorem error_data_lookup (V : Type) (str_value : string -> V)
  (error_type error_message : string) (context : option (logger.dict V))
  (k : string) :
  NoDup (map fst (context_items context)) ->
  logger.dict_get k
    (logger.error_data str_value error_type error_message context)
  = match logger.dict_get k (context_items context) with
    | Some v => Some v
    | None =>
        if String.eqb k "error_type" then Some (str_value error_type)
        else if String.eqb k "error_message" then Some (str_value error_message)
        else None
    end.
Proof.
  intros Hnd. rewrite error_data_update, dict_get_update by exact Hnd.
  reflexivity.
Qed.

Lemma error_data_lookup_witness :
  logger.dict_get "error_type"
    (logger.error_data (fun s => s) "ValueError" "bad input"
       (Some [("user_id", "42"); ("error_type", "Custom")]))%string
  = match logger.dict_get "error_type"
            (context_items
               (Some [("user_id", "42"); ("error_type", "Custom")]))%string with
    | Some v => Some v
    | None =>
        if String.eqb "error_type" "error_type" then Some "ValueError"%string
        else if String.eqb "error_type" "error_message"
             then Some "bad input"%string
        else None
    end.
Proof.
  apply (error_data_lookup string (fun s => s) "ValueError" "bad input"
           (Some [("user_id", "42"); ("error_type", "Custom")])%string
           "error_type").
  repeat constructor; simpl; intuition discriminate.
Defined.

(** X19: the keys of the logged data are [error_type], [error_message] and
    then the other keys of the context in the context's order, each key
    once. *)
Theorem error_data_keys (V : Type) (str_value : string -> V)
  (error_type error_message : string) (context : option (logger.dict V)) :
  NoDup (map fst (context_items context)) ->
  map fst (logger.error_data str_value error_type error_message context)
  = "error_type"%string :: "error_message"%string
      :: filter (fun k => negb (String.eqb k "error_type")
                          && negb (String.eqb k "error_message"))
           (map fst (context_items context))
  /\ NoDup (map fst (logger.error_data str_value error_type error_message
                       context)).
Proof.
  intros Hnd.
  assert (E : map fst (logger.error_data str_value error_type error_message
                         context)
              = "error_type"%string :: "error_message"%string
                  :: filter (fun k => negb (String.eqb k "error_type")
                                      && negb (String.eqb k "error_message"))
                       (map fst (context_items context))).
  { rewrite error_data_update.
    pose proof (keys_dict_update (context_items context)
                  [("error_type"%string, str_value error_type);
                   ("error_message"%string, str_value error_message)] Hnd) as K.
    unfold keys in K. rewrite K. cbn [map fst app]. do 2 f_equal.
    apply filter_ext. intros k. unfold mem. cbn [existsb].
    rewrite orb_false_r. apply negb_orb. }
  split; [exact E|]. rewrite E.
  set (f := fun k => negb (String.eqb k "error_type")
                     && negb (String.eqb k "error_message")).
  assert (Hf : forall k, In k (filter f (map fst (context_items context))) ->
                         k <> "error_type"%string
                         /\ k <> "error_message"%string).
  { intros k Hk. apply filter_In in Hk as [_ Hk]. unfold f in Hk.
    apply andb_true_iff in Hk as [H1 H2].
    apply negb_true_iff in H1, H2.
    apply String.eqb_neq in H1, H2. tauto. }
  constructor.
  - intros [Hin|Hin]; [discriminate Hin|]. apply Hf in Hin. tauto.
  - constructor.
    + intros Hin. apply Hf in Hin. tauto.
    + now apply NoDup_filter.
Qed.

Lemma error_data_keys_witness :
  map fst (logger.error_data (fun s => s) "ValueError" "bad input"
             (Some [("user_id", "42"); ("error_type", "Custom")]))%string
  = "error_type"%string :: "error_message"%string
      :: filter (fun k => negb (String.eqb k "error_type")
                          && negb (String.eqb k "error_message"))
           (map fst (context_items
                       (Some [("user_id", "42"); ("error_type", "Custom")])))%string
  /\ NoDup (map fst (logger.error_data (fun s => s) "ValueError" "bad input"
                       (Some [("user_id", "42"); ("error_type", "Custom")])))%string.
Proof.
  apply (error_data_keys string (fun s => s) "ValueError" "bad input"
           (Some [("user_id", "42"); ("error_type", "Custom")])%string).
  repeat constructor; simpl; intuition discriminate.
Defined.

(** ** The session dependency [get_db] *)

Ltac each_world w :=
  destruct w as [[[r|r]|] [[c|c]|] [[rb|rb]|] [[cl|cl]|]];
  cbn [database.route database.commit_raises database.rollback_raises
       database.close_raises].

Ltac run_get_db :=
  cbv [database.get_db database.async_with database.try_finally
       database.try_except_Exception database.seq_ database.await
       database.raise_ database.route database.commit_raises
       database.rollback_raises database.close_raises app fst snd].


(** X21: a commit is attempted exactly when the route finished without an
    exception; a rollback is attempted exactly when an exception caught by
    [except Exception] came out of the route or out of the commit.  An
    exception outside that class (a cancellation, say) leads to neither. *)
Theorem get_db_commit_rollback (w : database.world) :
  (In database.Commit (snd (database.get_db w []))
   <-> database.route w = None) /\
  (In database.Rollback (snd (database.get_db w []))
   <-> (exists n, database.route w = Some (database.Exception_ n))
       \/ (database.route w = None
           /\ exists n,
               database.commit_raises w = Some (database.Exception_ n))).
Proof.
  each_world w; run_get_db; simpl;
    (split; split;
     [ intros Hin; intuition (try discriminate; try reflexivity)
     | intros Hr; intuition (try discriminate)
     | intros Hin; intuition (try discriminate; eauto)
     | intros [[n Hn]|[Hn [n Hc]]];
       try discriminate; intuition (try discriminate) ]).
Qed.

(** X22: the generator finishes without an exception exactly when the
    route, the commit and the close all did.  Otherwise it raises: the
    exception of a failed close; else that of a failed rollback; else the
    one that came out of the route or the commit, which is never
    swallowed. *)
Theorem get_db_outcome (w : database.world) :
  (fst (database.get_db w []) = database.Return tt
   <-> database.route w = None /\ database.commit_raises w = None
       /\ database.close_raises w = None) /\
  (forall e, database.close_raises w = Some e ->
             fst (database.get_db w []) = database.Raised e) /\
  (forall e, database.route w = Some e ->
             exists e', fst (database.get_db w []) = database.Raised e') /\
  (forall e, database.route w = Some e ->
             database.rollback_raises w = None ->
             database.close_raises w = None ->
             fst (database.get_db w []) = database.Raised e) /\
  (forall e, database.route w = None ->
             database.commit_raises w = Some e ->
             database.rollback_raises w = None ->
             database.close_raises w = None ->
             fst (database.get_db w []) = database.Raised e).
Proof.
  each_world w; run_get_db;
    repeat split; intros; try discriminate; try congruence;
    try (eexists; reflexivity);
    intuition (try discriminate; try congruence).
Qed.
